(** * Hazard-aware motion command arbiter: nav_pkg/help.py

    A shallow embedding of the control logic of [HazardControlGUI]
    (src/nav_pkg/nav_pkg/help.py) and the properties its specification
    states about it.

    Python floats are idealised as real numbers: every comparison,
    sum, difference, quotient and square root of the source is the exact
    operation on [R].  Widget texts, style sheets, logging and plotting are
    presentation and are left out; the fields of [self] that the control
    logic reads or writes are the fields of the record [GUI]. *)

From Stdlib Require Import Reals Lra Lia ZArith Bool List.
Import ListNotations.

Open Scope R_scope.

(** * The embedding *)

(** ** Numeric helpers: Python's comparisons and [int] on reals *)

(** [a > b] as the boolean the source branches on. *)
Definition Rgtb (a b : R) : bool := if Rgt_dec a b then true else false.

(** [a < b] as a boolean. *)
Definition Rltb (a b : R) : bool := if Rlt_dec a b then true else false.

(** Python's [int(r)] on a float: truncation towards zero. *)
Definition py_int (r : R) : Z :=
  if Rle_dec 0 r then Int_part r else (- Int_part (- r))%Z.

(** ** Data model *)

(** [self.button_states]: a dict with the four keys below. *)
Record ButtonStates : Type := mkButtons {
  forward : bool;
  backward : bool;
  left : bool;
  right : bool
}.

(** The fields of [HazardControlGUI] used by the control logic.
    [ros_node] records whether [self.ros_node] is set (it is [None] until the
    ROS thread has created the node); [speed_slider] is the integer value of
    the speed slider widget. *)
Record GUI : Type := mkGUI {
  gamepad_connected : bool;
  last_gamepad_check : Z;
  speed : R;
  x_dir : R;
  z_dir : R;
  button_states : ButtonStates;
  hazard_distance : R;
  emergency_active : bool;
  hazard_threshold : R;
  safe_mode_override : bool;
  ros_node : bool;
  speed_slider : Z;
  last_x : R;
  last_z : R;
  last_speed : R;
  deadzone : R
}.

(** The arguments of one call
    [self.ros_node.wheel_drive(x, z, speed, override_safe_mode=...)]. *)
Record WheelDrive : Type := mkWheelDrive {
  wd_x : R;
  wd_z : R;
  wd_speed : R;
  override_safe_mode : bool
}.

(** The specification's velocity intent [{forward, turn, speed}]. *)
Module Intent.
Record t : Type := mk { forward : R; turn : R; speed : R }.
Definition zero : t := mk 0 0 0.
End Intent.

Inductive SafetyState : Type := NORMAL | EMERGENCY.

Inductive EffectiveMode : Type :=
  MODE_NORMAL | EMERGENCY_STOPPED | OVERRIDDEN.

(** ** [__init__] *)

(** The state [__init__] leaves behind.  Whether a gamepad was found and
    where the speed slider stands come from the environment and from
    [init_controls]; [self.ros_node] is [None] until the ROS thread sets it. *)
Definition init (gamepad : bool) (slider : Z) : GUI :=
  {| gamepad_connected := gamepad;
     last_gamepad_check := 0;
     speed := 0;
     x_dir := 0;
     z_dir := 0;
     button_states := mkButtons false false false false;
     hazard_distance := 999;
     emergency_active := false;
     hazard_threshold := 5;
     safe_mode_override := false;
     ros_node := false;
     speed_slider := slider;
     last_x := 0;
     last_z := 0;
     last_speed := 0;
     deadzone := 0.01 |}.

Definition threshold_slider_init (s : GUI) : Z := py_int (hazard_threshold s * 10).

(** ** Hazard monitor and safety interlock *)

(** Modelled from the spec: the methods that turn a hazard sample into
    [emergency_active] ([hazard_callback_gui], [update_hazard_display]) are
    not in the source.  Section 4.2: [state()] returns [EMERGENCY] iff
    [current_distance_m < threshold_m]; else [NORMAL]. *)
Definition hazard_state (distance threshold : R) : SafetyState :=
  if Rltb distance threshold then EMERGENCY else NORMAL.

(** Modelled from the spec: [HazardMonitor.update], the arrival of a sample;
    the latest distance replaces the stored one. *)
Definition hazard_update (distance : R) (s : GUI) : GUI :=
  {| gamepad_connected := gamepad_connected s;
     last_gamepad_check := last_gamepad_check s;
     speed := speed s;
     x_dir := x_dir s;
     z_dir := z_dir s;
     button_states := button_states s;
     hazard_distance := distance;
     emergency_active :=
       match hazard_state distance (hazard_threshold s) with
       | EMERGENCY => true
       | NORMAL => false
       end;
     hazard_threshold := hazard_threshold s;
     safe_mode_override := safe_mode_override s;
     ros_node := ros_node s;
     speed_slider := speed_slider s;
     last_x := last_x s;
     last_z := last_z s;
     last_speed := last_speed s;
     deadzone := deadzone s |}.



(** The threshold on the grid of tenths of a metre whose slider position is
    [v]: line 207 read backwards ([slider_position (slider_threshold v) = v]
    is proved below). *)
Definition slider_threshold (v : Z) : R := IZR v / 10.

(** Modelled from the spec: section 3, the effective mode derived from the
    safety state and the operator's override flag. *)
Definition effective_mode (hazard : SafetyState) (override : bool) : EffectiveMode :=
  match hazard, override with
  | EMERGENCY, false => EMERGENCY_STOPPED
  | EMERGENCY, true => OVERRIDDEN
  | NORMAL, _ => MODE_NORMAL
  end.

(** Modelled from the spec: [HazardPublisherNode.wheel_drive], which receives
    the override flag, is not in the source.  Section 4.3:
    [gate(intent, hazard, override)] returns the zero intent in
    [EMERGENCY_STOPPED] and the input intent in the other two modes, together
    with the mode. *)
Definition gate (intent : Intent.t) (hazard : SafetyState) (override : bool)
  : Intent.t * EffectiveMode :=
  match effective_mode hazard override with
  | EMERGENCY_STOPPED => (Intent.zero, EMERGENCY_STOPPED)
  | OVERRIDDEN => (intent, OVERRIDDEN)
  | MODE_NORMAL => (intent, MODE_NORMAL)
  end.

(** The intent carried by a [wheel_drive] call. *)
Definition intent_of (c : WheelDrive) : Intent.t :=
  Intent.mk (wd_x c) (wd_z c) (wd_speed c).

(** What a [wheel_drive] call issued in state [s] puts on the command
    channel: the call's intent behind the interlock. *)
Definition published (s : GUI) (c : WheelDrive) : Intent.t :=
  fst (gate (intent_of c)
            (hazard_state (hazard_distance s) (hazard_threshold s))
            (override_safe_mode c)).

(** ** [update_output]: the 20 Hz dispatch tick *)

(** Lines 324-333: the direction held on the four buttons. *)
Definition manual_direction (b : ButtonStates) : R * R :=
  let x := 0 in
  let z := 0 in
  let x := if forward b then x + 1 else x in
  let x := if backward b then x - 1 else x in
  let z := if left b then z + 1 else z in
  let z := if right b then z - 1 else z in
  (x, z).

(** Lines 335-337: the change gate against the last values sent. *)
Definition changed (s : GUI) (x z : R) : bool :=
  Rgtb (Rabs (x - last_x s)) (deadzone s)
  || Rgtb (Rabs (z - last_z s)) (deadzone s)
  || Rgtb (Rabs (speed s - last_speed s)) (deadzone s).

(** Lines 340-342. *)
Definition set_last (x z sp : R) (s : GUI) : GUI :=
  {| gamepad_connected := gamepad_connected s;
     last_gamepad_check := last_gamepad_check s;
     speed := speed s;
     x_dir := x_dir s;
     z_dir := z_dir s;
     button_states := button_states s;
     hazard_distance := hazard_distance s;
     emergency_active := emergency_active s;
     hazard_threshold := hazard_threshold s;
     safe_mode_override := safe_mode_override s;
     ros_node := ros_node s;
     speed_slider := speed_slider s;
     last_x := x;
     last_z := z;
     last_speed := sp;
     deadzone := deadzone s |}.

(** One tick: the new state and the [wheel_drive] call made, if any. *)
Definition update_output (s : GUI) : GUI * option WheelDrive :=
  if negb (ros_node s) then (s, None)
  else
    let (x, z) := manual_direction (button_states s) in
    if changed s x z then
      (set_last x z (speed s) s,
       Some (mkWheelDrive x z (speed s) (safe_mode_override s)))
    else (s, None).

(** [n] consecutive ticks with nothing else touching the state: the final
    state and the calls made, oldest first. *)
Fixpoint run_ticks (n : nat) (s : GUI) : GUI * list WheelDrive :=
  match n with
  | O => (s, [])
  | S n' =>
      let (s1, out) := update_output s in
      let (s2, calls) := run_ticks n' s1 in
      (s2, match out with Some c => c :: calls | None => calls end)
  end.

(** ** [update_gamepad]: the controller poll *)

(** The controller as pygame shows it at one poll. *)
Record Joystick : Type := mkJoystick {
  get_numaxes : nat;
  get_axis : nat -> R;
  get_button : nat -> bool
}.

(** The environment of one poll: [pygame.time.get_ticks()] and the device
    attached as joystick 0, if any. *)
Record Poll : Type := mkPoll {
  get_ticks : Z;
  attached : option Joystick
}.

(** The local [deadzone = 0.2] of [update_gamepad]. *)
Definition stick_deadzone : R := 0.2.

(** Line 292: [self.x_dir = -left_y if abs(left_y) > deadzone else 0.0]. *)
Definition axis_x_dir (left_y : R) : R :=
  if Rgtb (Rabs left_y) stick_deadzone then - left_y else 0.

(** Line 293: [self.z_dir = left_x if abs(left_x) > deadzone else 0.0]. *)
Definition axis_z_dir (left_x : R) : R :=
  if Rgtb (Rabs left_x) stick_deadzone then left_x else 0.

(** Lines 296-299: scale the pair down to the unit circle. *)
Definition normalize (x z : R) : R * R :=
  let magnitude := sqrt (x ^ 2 + z ^ 2) in
  if Rgtb magnitude 1 then (x / magnitude, z / magnitude) else (x, z).

(** Lines 291-299: the direction the left stick gives. *)
Definition gamepad_direction (left_x left_y : R) : R * R :=
  normalize (axis_x_dir left_y) (axis_z_dir left_x).

(** Lines 284-288: the right stick nudges the speed slider. *)
Definition nudge_slider (current_slider_val : Z) (right_x : R) : Z :=
  let change := py_int (right_x * 5) in
  Z.max 0 (Z.min 100 (current_slider_val + change)).

(** [init_gamepad]: the connection flag follows the device. *)
Definition init_gamepad (p : Poll) (s : GUI) : GUI :=
  {| gamepad_connected :=
       match attached p with Some _ => true | None => false end;
     last_gamepad_check := last_gamepad_check s;
     speed := speed s;
     x_dir := x_dir s;
     z_dir := z_dir s;
     button_states := button_states s;
     hazard_distance := hazard_distance s;
     emergency_active := emergency_active s;
     hazard_threshold := hazard_threshold s;
     safe_mode_override := safe_mode_override s;
     ros_node := ros_node s;
     speed_slider := speed_slider s;
     last_x := last_x s;
     last_z := last_z s;
     last_speed := last_speed s;
     deadzone := deadzone s |}.

Definition set_last_gamepad_check (t : Z) (s : GUI) : GUI :=
  {| gamepad_connected := gamepad_connected s;
     last_gamepad_check := t;
     speed := speed s;
     x_dir := x_dir s;
     z_dir := z_dir s;
     button_states := button_states s;
     hazard_distance := hazard_distance s;
     emergency_active := emergency_active s;
     hazard_threshold := hazard_threshold s;
     safe_mode_override := safe_mode_override s;
     ros_node := ros_node s;
     speed_slider := speed_slider s;
     last_x := last_x s;
     last_z := last_z s;
     last_speed := last_speed s;
     deadzone := deadzone s |}.

(** The [except] branch: [self.gamepad_connected = False]. *)
Definition gamepad_error (s : GUI) : GUI :=
  {| gamepad_connected := false;
     last_gamepad_check := last_gamepad_check s;
     speed := speed s;
     x_dir := x_dir s;
     z_dir := z_dir s;
     button_states := button_states s;
     hazard_distance := hazard_distance s;
     emergency_active := emergency_active s;
     hazard_threshold := hazard_threshold s;
     safe_mode_override := safe_mode_override s;
     ros_node := ros_node s;
     speed_slider := speed_slider s;
     last_x := last_x s;
     last_z := last_z s;
     last_speed := last_speed s;
     deadzone := deadzone s |}.

(** Lines 287-299: slider, speed and stick direction written back. *)
Definition set_stick (slider : Z) (dir : R * R) (s : GUI) : GUI :=
  {| gamepad_connected := gamepad_connected s;
     last_gamepad_check := last_gamepad_check s;
     speed := IZR slider / 100;
     x_dir := fst dir;
     z_dir := snd dir;
     button_states := button_states s;
     hazard_distance := hazard_distance s;
     emergency_active := emergency_active s;
     hazard_threshold := hazard_threshold s;
     safe_mode_override := safe_mode_override s;
     ros_node := ros_node s;
     speed_slider := slider;
     last_x := last_x s;
     last_z := last_z s;
     last_speed := last_speed s;
     deadzone := deadzone s |}.

(** One poll.  The boolean tells that [self.emergency_stop()] (START button;
    its body is not in the source) is called next on the returned state.
    A connection flag that is set while no device answers makes pygame raise,
    which the [except] branch turns into a disconnect. *)
Definition update_gamepad (p : Poll) (s : GUI) : GUI * bool :=
  let s :=
    if (get_ticks p - last_gamepad_check s >? 5000)%Z
    then init_gamepad p (set_last_gamepad_check (get_ticks p) s)
    else s in
  if negb (gamepad_connected s) then (s, false)
  else
    match attached p with
    | None => (gamepad_error s, false)
    | Some j =>
        let num_axes := get_numaxes j in
        if (0 <? num_axes)%nat then
          let left_x := get_axis j 0 in
          let left_y := if (1 <? num_axes)%nat then get_axis j 1 else 0 in
          let right_x := if (3 <? num_axes)%nat then get_axis j 3 else 0 in
          let new_speed_val := nudge_slider (speed_slider s) right_x in
          (set_stick new_speed_val (gamepad_direction left_x left_y) s,
           get_button j 9)
        else (s, false)
    end.


(** Euclidean magnitude of a direction pair. *)
Definition magnitude (d : R * R) : R := sqrt (fst d ^ 2 + snd d ^ 2).

(** ** Predicates and scenario states of the dispatch tick *)

(** The tick makes a [wheel_drive] call. *)
Definition sends (s : GUI) : Prop := snd (update_output s) <> None.

(** Some field of the candidate is further than [deadzone] from the value
    last sent. *)
Definition exceeds (s : GUI) : Prop :=
  let (x, z) := manual_direction (button_states s) in
  Rabs (x - last_x s) > deadzone s
  \/ Rabs (z - last_z s) > deadzone s
  \/ Rabs (speed s - last_speed s) > deadzone s.

(** A pressed forward button, nothing sent yet, and no ROS node. *)
Definition waiting_for_node : GUI :=
  {| gamepad_connected := false;
     last_gamepad_check := 0;
     speed := 0;
     x_dir := 0;
     z_dir := 0;
     button_states := mkButtons true false false false;
     hazard_distance := 999;
     emergency_active := false;
     hazard_threshold := 5;
     safe_mode_override := false;
     ros_node := false;
     speed_slider := 0;
     last_x := 0;
     last_z := 0;
     last_speed := 0;
     deadzone := 0.01 |}.

(** The spec's scenario once a node exists. *)
Definition scenario_small_change : GUI :=
  {| gamepad_connected := false;
     last_gamepad_check := 0;
     speed := 0.5;
     x_dir := 0;
     z_dir := 0;
     button_states := mkButtons false false false false;
     hazard_distance := 999;
     emergency_active := false;
     hazard_threshold := 5;
     safe_mode_override := false;
     ros_node := true;
     speed_slider := 50;
     last_x := 0.10;
     last_z := 0;
     last_speed := 0.5;
     deadzone := 0.01 |}.

(** ** The stored last-sent values *)

(** The triple [(last_x, last_z, last_speed)]. *)
Definition last_sent (s : GUI) : Intent.t :=
  Intent.mk (last_x s) (last_z s) (last_speed s).

(** Forward held at half speed, an obstacle at 4.0 m under the 5.0 m
    threshold, no override, nothing sent before. *)
Definition forward_in_emergency : GUI :=
  {| gamepad_connected := false;
     last_gamepad_check := 0;
     speed := 0.5;
     x_dir := 0;
     z_dir := 0;
     button_states := mkButtons true false false false;
     hazard_distance := 4;
     emergency_active := true;
     hazard_threshold := 5;
     safe_mode_override := false;
     ros_node := true;
     speed_slider := 50;
     last_x := 0;
     last_z := 0;
     last_speed := 0;
     deadzone := 0.01 |}.

(** ** Scenario states for repeated ticks *)

(** Forward held at half speed with a free path, before the first send. *)
Definition cruise_start : GUI :=
  {| gamepad_connected := false;
     last_gamepad_check := 0;
     speed := 0.5;
     x_dir := 0;
     z_dir := 0;
     button_states := mkButtons true false false false;
     hazard_distance := 999;
     emergency_active := false;
     hazard_threshold := 5;
     safe_mode_override := false;
     ros_node := true;
     speed_slider := 50;
     last_x := 0;
     last_z := 0;
     last_speed := 0;
     deadzone := 0.01 |}.

(** The state in which the 4.0 m sample has arrived while the rover drives:
    forward is held at half speed and that command was the last one sent. *)
Definition entering_emergency : GUI :=
  {| gamepad_connected := false;
     last_gamepad_check := 0;
     speed := 0.5;
     x_dir := 0;
     z_dir := 0;
     button_states := mkButtons true false false false;
     hazard_distance := 4;
     emergency_active := true;
     hazard_threshold := 5;
     safe_mode_override := false;
     ros_node := true;
     speed_slider := 50;
     last_x := 1;
     last_z := 0;
     last_speed := 0.5;
     deadzone := 0.01 |}.

(** ** Scenario states for the buttons *)

(** All four buttons held at half speed, nothing sent before. *)
Definition all_buttons_held : GUI :=
  {| gamepad_connected := false;
     last_gamepad_check := 0;
     speed := 0.5;
     x_dir := 0;
     z_dir := 0;
     button_states := mkButtons true true true true;
     hazard_distance := 999;
     emergency_active := false;
     hazard_threshold := 5;
     safe_mode_override := false;
     ros_node := true;
     speed_slider := 50;
     last_x := 0;
     last_z := 0;
     last_speed := 0;
     deadzone := 0.01 |}.

(** ** Scenario states for the direction magnitude *)

(** Forward and left held together at half speed, nothing sent before. *)
Definition diagonal_buttons : GUI :=
  {| gamepad_connected := false;
     last_gamepad_check := 0;
     speed := 0.5;
     x_dir := 0;
     z_dir := 0;
     button_states := mkButtons true false true false;
     hazard_distance := 999;
     emergency_active := false;
     hazard_threshold := 5;
     safe_mode_override := false;
     ros_node := true;
     speed_slider := 50;
     last_x := 0;
     last_z := 0;
     last_speed := 0;
     deadzone := 0.01 |}.

(** A pad with two axes, the stick pushed into the corner. *)
Definition stick_corner : Joystick :=
  mkJoystick 2 (fun i => match i with 0%nat => 1 | _ => -1 end)
             (fun _ => false).

(** ** Scenario states for buttons with a controller *)

(** A pad with two axes, the stick pushed half way to the right. *)
Definition stick_right : Joystick :=
  mkJoystick 2 (fun i => match i with 0%nat => 0.5 | _ => 0 end)
             (fun _ => false).

Definition poll_stick_right : Poll := mkPoll 1000 (Some stick_right).

(** Forward held, a pad connected, the ROS node up, nothing sent yet. *)
Definition forward_held_with_pad : GUI :=
  {| gamepad_connected := true;
     last_gamepad_check := 0;
     speed := 0;
     x_dir := 0;
     z_dir := 0;
     button_states := mkButtons true false false false;
     hazard_distance := 999;
     emergency_active := false;
     hazard_threshold := 5;
     safe_mode_override := false;
     ros_node := true;
     speed_slider := 0;
     last_x := 0;
     last_z := 0;
     last_speed := 0;
     deadzone := 0.01 |}.

(** ** Events before the first hazard sample *)

(** [setup_ros_node]: the ROS thread has created the node. *)
Definition set_ros_node (s : GUI) : GUI :=
  {| gamepad_connected := gamepad_connected s;
     last_gamepad_check := last_gamepad_check s;
     speed := speed s;
     x_dir := x_dir s;
     z_dir := z_dir s;
     button_states := button_states s;
     hazard_distance := hazard_distance s;
     emergency_active := emergency_active s;
     hazard_threshold := hazard_threshold s;
     safe_mode_override := safe_mode_override s;
     ros_node := true;
     speed_slider := speed_slider s;
     last_x := last_x s;
     last_z := last_z s;
     last_speed := last_speed s;
     deadzone := deadzone s |}.

(** What the source lets happen while no hazard sample has arrived: a
    dispatch tick, a controller poll, the ROS node coming up. *)
Inductive Event : Type :=
| Tick
| PollPad (p : Poll)
| NodeUp.

(** One event.  A poll that calls [self.emergency_stop()] hands over to a
    method whose body is not in the source: the run is not followed further
    ([None]). *)
Definition step (s : GUI) (e : Event) : option GUI :=
  match e with
  | Tick => Some (fst (update_output s))
  | PollPad p =>
      let (s1, stop) := update_gamepad p s in
      if stop then None else Some s1
  | NodeUp => Some (set_ros_node s)
  end.

Fixpoint run (es : list Event) (s : GUI) : option GUI :=
  match es with
  | [] => Some s
  | e :: es' =>
      match step s e with
      | Some s1 => run es' s1
      | None => None
      end
  end.


(** ** Predicates and scenario inputs of the further properties *)

(** A value a button axis can take. *)
Definition button_valued (r : R) : Prop := r = -1 \/ r = 0 \/ r = 1.

(** No field of the candidate is further than [deadzone] from the value last
    sent: the condition of lines 335-337 is false. *)
Definition within_deadzone (s : GUI) : Prop :=
  let (x, z) := manual_direction (button_states s) in
  Rabs (x - last_x s) <= deadzone s
  /\ Rabs (z - last_z s) <= deadzone s
  /\ Rabs (speed s - last_speed s) <= deadzone s.

(** Two states agree on every field [update_output] reads. *)
Definition same_dispatch_inputs (s s' : GUI) : Prop :=
  ros_node s = ros_node s'
  /\ button_states s = button_states s'
  /\ speed s = speed s'
  /\ safe_mode_override s = safe_mode_override s'
  /\ last_x s = last_x s'
  /\ last_z s = last_z s'
  /\ last_speed s = last_speed s'
  /\ deadzone s = deadzone s'.

(** Line 259: the connection is looked at again. *)
Definition recheck_due (p : Poll) (s : GUI) : bool :=
  (get_ticks p - last_gamepad_check s >? 5000)%Z.

(** A poll at 1 s with nothing plugged in. *)
Definition poll_no_device : Poll := mkPoll 1000 None.

(** A pad at rest with START (button 9) pressed. *)
Definition stick_start : Joystick :=
  mkJoystick 2 (fun _ => 0) (fun b => Nat.eqb b 9).

(** A device that reports no axes, START pressed. *)
Definition pad_without_axes : Joystick :=
  mkJoystick 0 (fun _ => 0) (fun b => Nat.eqb b 9).

(** [cruise_start] with an obstacle, a moved stick and a lost pad: every
    field the dispatch tick does not read is different. *)
Definition cruise_start_disturbed : GUI :=
  {| gamepad_connected := true;
     last_gamepad_check := 7000;
     speed := 0.5;
     x_dir := 1;
     z_dir := 0;
     button_states := mkButtons true false false false;
     hazard_distance := 2;
     emergency_active := true;
     hazard_threshold := 8;
     safe_mode_override := false;
     ros_node := true;
     speed_slider := 12;
     last_x := 0;
     last_z := 0;
     last_speed := 0;
     deadzone := 0.01 |}.

(** * Properties *)

(** ** Comparisons *)

Lemma Rgtb_true (a b : R) : Rgtb a b = true <-> a > b.
Proof.
  unfold Rgtb. destruct (Rgt_dec a b) as [H | H]; split; intro G;
    try reflexivity; try assumption; try discriminate. contradiction.
Qed.

Lemma Rgtb_false (a b : R) : Rgtb a b = false <-> a <= b.
Proof.
  unfold Rgtb. destruct (Rgt_dec a b) as [H | H]; split; intro G;
    try reflexivity; try discriminate; lra.
Qed.

Lemma Rltb_true (a b : R) : Rltb a b = true <-> a < b.
Proof.
  unfold Rltb. destruct (Rlt_dec a b) as [H | H]; split; intro G;
    try reflexivity; try assumption; try discriminate. contradiction.
Qed.

Lemma Rltb_false (a b : R) : Rltb a b = false <-> b <= a.
Proof.
  unfold Rltb. destruct (Rlt_dec a b) as [H | H]; split; intro G;
    try reflexivity; try discriminate; lra.
Qed.

(** Decide every real comparison and absolute value left in the goal. *)
Ltac rdecide :=
  repeat match goal with
    | |- context [Rgt_dec ?a ?b] => destruct (Rgt_dec a b); try lra
    | |- context [Rlt_dec ?a ?b] => destruct (Rlt_dec a b); try lra
    | |- context [Rle_dec ?a ?b] => destruct (Rle_dec a b); try lra
    | |- context [Rcase_abs ?a] => destruct (Rcase_abs a); try lra
    end.

Ltac rcompute := unfold Rgtb, Rltb, Rabs; rdecide.

(** ** The hazard monitor *)

Lemma hazard_state_emergency (d t : R) : hazard_state d t = EMERGENCY <-> d < t.
Proof.
  unfold hazard_state. rewrite <- Rltb_true.
  destruct (Rltb d t); split; intro H; try reflexivity; discriminate.
Qed.

Lemma hazard_state_normal (d t : R) : hazard_state d t = NORMAL <-> t <= d.
Proof.
  unfold hazard_state. rewrite <- Rltb_false.
  destruct (Rltb d t); split; intro H; try reflexivity; discriminate.
Qed.

(** C2: the monitor reports EMERGENCY exactly when the distance is strictly
    below the threshold, and NORMAL otherwise; a distance equal to the
    threshold is NORMAL. *)
Theorem hazard_state_strict :
  (forall d t : R, hazard_state d t = EMERGENCY <-> d < t)
  /\ (forall d t : R, hazard_state d t = NORMAL <-> d >= t)
  /\ (forall t : R, hazard_state t t = NORMAL).
Proof.
  split; [| split].
  - exact hazard_state_emergency.
  - intros d t. rewrite hazard_state_normal. split; lra.
  - intro t. apply hazard_state_normal. lra.
Qed.

(** The spec's boundary scenario: threshold 5.0, samples 4.0 and 5.0. *)
Example hazard_state_scenario :
  hazard_state 4 5 = EMERGENCY /\ hazard_state 5 5 = NORMAL.
Proof. split; unfold hazard_state; rcompute; reflexivity. Qed.

(** ** The safety interlock *)

(** The invariant of section 3 on the effective mode. *)
Lemma effective_mode_inv (h : SafetyState) (o : bool) :
  (effective_mode h o = EMERGENCY_STOPPED <-> h = EMERGENCY /\ o = false)
  /\ (effective_mode h o = OVERRIDDEN <-> h = EMERGENCY /\ o = true).
Proof.
  destruct h, o; simpl; repeat split; intros; try discriminate;
    try reflexivity;
    match goal with H : _ /\ _ |- _ => destruct H; discriminate end.
Qed.

(** In normal operation the gate lets the intent through. *)
Lemma gate_normal (i : Intent.t) (o : bool) : gate i NORMAL o = (i, MODE_NORMAL).
Proof. destruct o; reflexivity. Qed.

(** The same on a [wheel_drive] call: a distance under the threshold zeroes
    what is published unless the call carries the override. *)
Lemma published_emergency (s : GUI) (c : WheelDrive) :
  hazard_distance s < hazard_threshold s ->
  published s c = if override_safe_mode c then intent_of c else Intent.zero.
Proof.
  intro H. unfold published.
  apply hazard_state_emergency in H. rewrite H.
  destruct (override_safe_mode c); reflexivity.
Qed.

(** ** The dispatch tick *)

Lemma changed_true (s : GUI) (x z : R) :
  changed s x z = true <->
  Rabs (x - last_x s) > deadzone s
  \/ Rabs (z - last_z s) > deadzone s
  \/ Rabs (speed s - last_speed s) > deadzone s.
Proof.
  unfold changed. rewrite !orb_true_iff, !Rgtb_true. tauto.
Qed.

Lemma changed_false (s : GUI) (x z : R) :
  changed s x z = false <->
  Rabs (x - last_x s) <= deadzone s
  /\ Rabs (z - last_z s) <= deadzone s
  /\ Rabs (speed s - last_speed s) <= deadzone s.
Proof.
  unfold changed. rewrite !orb_false_iff, !Rgtb_false. tauto.
Qed.

(** The three outcomes of a tick. *)
Lemma update_output_cases (s : GUI) :
  let (x, z) := manual_direction (button_states s) in
  (ros_node s = false /\ update_output s = (s, None))
  \/ (ros_node s = true /\ changed s x z = false /\ update_output s = (s, None))
  \/ (ros_node s = true /\ changed s x z = true
      /\ update_output s =
           (set_last x z (speed s) s,
            Some (mkWheelDrive x z (speed s) (safe_mode_override s)))).
Proof.
  unfold update_output.
  destruct (manual_direction (button_states s)) as [x z].
  destruct (ros_node s); simpl.
  - destruct (changed s x z); auto.
  - auto.
Qed.

(** Without a ROS node the tick returns before it looks at the buttons. *)
Lemma update_output_no_node (s : GUI) :
  ros_node s = false -> update_output s = (s, None).
Proof. intro H. unfold update_output. rewrite H. reflexivity. Qed.

(** C4, as stated, fails: with [self.ros_node] still [None] the forward
    component differs from the last one sent by 1 > 0.01, and the tick sends
    nothing. *)
Lemma change_gate_needs_node :
  exceeds waiting_for_node /\ ~ sends waiting_for_node.
Proof.
  split.
  - unfold exceeds; simpl. left. rcompute.
  - unfold sends. rewrite update_output_no_node by reflexivity.
    simpl. intro H. apply H. reflexivity.
Qed.

(** C4, amended: on a tick that finds the ROS node, a send occurs exactly
    when one of the three differences exceeds [deadzone] (a disjunction of
    the three fields); without the node nothing is sent; and the change gate
    with last sent (0.10, 0, 0.5), candidate (0.101, 0, 0.5) and
    [deadzone = 0.01] is closed. *)
Theorem change_gate (s : GUI) :
  (ros_node s = true -> (sends s <-> exceeds s))
  /\ (ros_node s = false -> ~ sends s)
  /\ (last_x s = 0.10 -> last_z s = 0 -> last_speed s = 0.5 ->
      speed s = 0.5 -> deadzone s = 0.01 -> changed s 0.101 0 = false).
Proof.
  split; [| split].
  - intro Hn. unfold sends, exceeds.
    pose proof (update_output_cases s) as Hc.
    destruct (manual_direction (button_states s)) as [x z].
    rewrite <- changed_true.
    destruct Hc as [[H _] | [(_ & Hf & E) | (_ & Ht & E)]].
    + congruence.
    + rewrite E, Hf. simpl. split; [intro G; now elim G | discriminate].
    + rewrite E, Ht. simpl. split; [reflexivity | discriminate].
  - intro Hn. unfold sends. rewrite (update_output_no_node s Hn). simpl.
    intro G. now apply G.
  - intros Hx Hz Hs Hsp Hd. apply changed_false.
    rewrite Hx, Hz, Hs, Hsp, Hd. repeat split; rcompute.
Qed.

Lemma change_gate_witness :
  changed scenario_small_change 0.101 0 = false
  /\ (sends scenario_small_change <-> exceeds scenario_small_change)
  /\ ~ sends waiting_for_node.
Proof.
  split; [| split].
  - apply (proj2 (proj2 (change_gate scenario_small_change))); reflexivity.
  - apply (proj1 (change_gate scenario_small_change)). reflexivity.
  - apply (proj1 (proj2 (change_gate waiting_for_node))). reflexivity.
Defined.

(** ** What a tick stores *)

Lemma forward_in_emergency_tick :
  update_output forward_in_emergency =
    (set_last (0 + 1) 0 0.5 forward_in_emergency,
     Some (mkWheelDrive (0 + 1) 0 0.5 false)).
Proof.
  pose proof (update_output_cases forward_in_emergency) as Hc.
  simpl in Hc.
  destruct Hc as [[H _] | [(_ & Hf & _) | (_ & _ & E)]].
  - discriminate.
  - exfalso. apply changed_false in Hf. simpl in Hf.
    destruct Hf as [Hf _]. revert Hf. rcompute.
  - exact E.
Qed.


(** The call of a sending tick carries the button direction. *)
Lemma update_output_call (s : GUI) (c : WheelDrive) :
  snd (update_output s) = Some c ->
  (wd_x c, wd_z c) = manual_direction (button_states s).
Proof.
  pose proof (update_output_cases s) as Hc.
  destruct (manual_direction (button_states s)) as [x z].
  destruct Hc as [[_ E] | [(_ & _ & E) | (_ & _ & E)]]; rewrite E; simpl;
    intro H; try discriminate.
  injection H as <-. reflexivity.
Qed.

(** The call carries the operator's override flag. *)
Lemma update_output_override (s : GUI) (c : WheelDrive) :
  snd (update_output s) = Some c ->
  override_safe_mode c = safe_mode_override s.
Proof.
  pose proof (update_output_cases s) as Hc.
  destruct (manual_direction (button_states s)) as [x z].
  destruct Hc as [[_ E] | [(_ & _ & E) | (_ & _ & E)]]; rewrite E; simpl;
    intro H; try discriminate.
  injection H as <-. reflexivity.
Qed.

(** C1: under EMERGENCY without override the gate returns the zero intent
    whatever the input is; under EMERGENCY with override it returns the
    input intent as it came; so a [wheel_drive] call made by the dispatch
    tick under EMERGENCY is published as zero without the override and as
    sent with it. *)
Theorem gate_emergency (i : Intent.t) (s : GUI) (c : WheelDrive) :
  gate i EMERGENCY false = (Intent.mk 0 0 0, EMERGENCY_STOPPED)
  /\ gate i EMERGENCY true = (i, OVERRIDDEN)
  /\ (snd (update_output s) = Some c ->
      hazard_state (hazard_distance s) (hazard_threshold s) = EMERGENCY ->
      published s c
      = if safe_mode_override s then intent_of c else Intent.mk 0 0 0).
Proof.
  split; [reflexivity |]. split; [reflexivity |].
  intros Hc He.
  apply hazard_state_emergency in He.
  rewrite (published_emergency s c He).
  rewrite (update_output_override s c Hc). reflexivity.
Qed.

Lemma gate_emergency_witness :
  snd (update_output forward_in_emergency)
  = Some (mkWheelDrive (0 + 1) 0 0.5 false)
  /\ published forward_in_emergency (mkWheelDrive (0 + 1) 0 0.5 false)
     = Intent.mk 0 0 0.
Proof.
  assert (Hc : snd (update_output forward_in_emergency)
               = Some (mkWheelDrive (0 + 1) 0 0.5 false)).
  { rewrite forward_in_emergency_tick. reflexivity. }
  assert (He : hazard_state (hazard_distance forward_in_emergency)
                            (hazard_threshold forward_in_emergency)
               = EMERGENCY).
  { apply hazard_state_emergency. simpl. lra. }
  split; [exact Hc |].
  exact (proj2 (proj2 (gate_emergency Intent.zero forward_in_emergency _))
           Hc He).
Defined.

(** ** Repeated ticks *)

Lemma changed_set_last (s : GUI) (x z : R) :
  0 <= deadzone s -> changed (set_last x z (speed s) s) x z = false.
Proof.
  intro Hd. apply changed_false. simpl.
  unfold Rminus. rewrite !Rplus_opp_r, Rabs_R0. auto.
Qed.

(** After one tick the state is settled: a further tick on the same inputs
    sends nothing and changes nothing. *)
Lemma update_output_settled (s : GUI) :
  0 <= deadzone s ->
  update_output (fst (update_output s)) = (fst (update_output s), None).
Proof.
  intro Hd.
  pose proof (update_output_cases s) as Hc.
  destruct (manual_direction (button_states s)) as [x z] eqn:Em.
  destruct Hc as [[Hn E] | [(Hn & Hf & E) | (Hn & Ht & E)]]; rewrite E; simpl.
  - exact E.
  - exact E.
  - unfold update_output at 1.
    change (ros_node (set_last x z (speed s) s)) with (ros_node s).
    change (button_states (set_last x z (speed s) s)) with (button_states s).
    rewrite Hn, Em. cbn [negb].
    change (speed (set_last x z (speed s) s)) with (speed s).
    rewrite (changed_set_last s x z Hd). reflexivity.
Qed.

Lemma run_ticks_S (n : nat) (s : GUI) :
  run_ticks (S n) s =
    (let (s1, out) := update_output s in
     let (s2, calls) := run_ticks n s1 in
     (s2, match out with Some c => c :: calls | None => calls end)).
Proof. reflexivity. Qed.

Lemma run_ticks_settled (n : nat) (s : GUI) :
  update_output s = (s, None) -> run_ticks n s = (s, []).
Proof.
  intro E. induction n as [| n IH]; simpl.
  - reflexivity.
  - rewrite E, IH. reflexivity.
Qed.

(** The first tick sends the drive command; the path is free, so it is
    published as it is. *)
Lemma cruise_start_tick :
  update_output cruise_start =
    (set_last (0 + 1) 0 0.5 cruise_start,
     Some (mkWheelDrive (0 + 1) 0 0.5 false))
  /\ published cruise_start (mkWheelDrive (0 + 1) 0 0.5 false)
     = Intent.mk (0 + 1) 0 0.5.
Proof.
  split.
  - pose proof (update_output_cases cruise_start) as Hc.
    simpl in Hc.
    destruct Hc as [[H _] | [(_ & Hf & _) | (_ & _ & E)]].
    + discriminate.
    + exfalso. apply changed_false in Hf. simpl in Hf.
      destruct Hf as [Hf _]. revert Hf. rcompute.
    + exact E.
  - unfold published. simpl.
    replace (hazard_state 999 5) with NORMAL; [reflexivity |].
    symmetry. apply hazard_state_normal. lra.
Qed.

(** [entering_emergency] is where the first tick of [cruise_start] followed
    by the arrival of the sample leads. *)
Lemma entering_emergency_reached :
  hazard_update 4 (fst (update_output cruise_start)) = entering_emergency.
Proof.
  rewrite (proj1 cruise_start_tick). cbn [fst].
  unfold hazard_update, entering_emergency.
  cbn [set_last cruise_start gamepad_connected last_gamepad_check speed x_dir
       z_dir button_states hazard_threshold safe_mode_override ros_node
       speed_slider last_x last_z last_speed deadzone].
  replace (hazard_state 4 5) with EMERGENCY
    by (symmetry; apply hazard_state_emergency; lra).
  f_equal. lra.
Qed.

(** C3, as stated, fails: the rover was last told to drive forward, the
    distance of 4.0 m is under the threshold of 5.0 m with no override, and
    over the tick entering emergency and 100 further ticks the dispatcher
    makes no call at all, so no zero intent goes out. *)
Lemma emergency_entry_sends_nothing :
  hazard_distance entering_emergency < hazard_threshold entering_emergency
  /\ safe_mode_override entering_emergency = false
  /\ last_sent entering_emergency = Intent.mk 1 0 0.5
  /\ snd (run_ticks 101 entering_emergency) = []
  /\ length (snd (run_ticks 101 entering_emergency)) <> 1%nat.
Proof.
  assert (Hs : update_output entering_emergency = (entering_emergency, None)).
  { pose proof (update_output_cases entering_emergency) as Hc.
    simpl in Hc.
    destruct Hc as [[H _] | [(_ & _ & E) | (_ & Ht & _)]].
    - discriminate.
    - exact E.
    - exfalso. apply changed_true in Ht. simpl in Ht.
      revert Ht. rcompute. }
  split; [simpl; lra |]. split; [reflexivity |]. split; [reflexivity |].
  rewrite (run_ticks_settled 101 _ Hs). split; [reflexivity |].
  simpl. discriminate.
Qed.

(** C3, amended: on the tick entering emergency the dispatcher makes at most
    one [wheel_drive] call, and it makes it exactly when the ROS node exists
    and the button and speed candidate differs from the values last sent by
    more than [deadzone]; the call carries that candidate and the override
    flag, the dispatcher does not zero it; over any number of further ticks
    with the same inputs nothing more is sent. *)
Theorem emergency_dispatch (s : GUI) (n : nat) :
  0 <= deadzone s ->
  snd (run_ticks (S n) s) =
    match snd (update_output s) with Some c => [c] | None => [] end
  /\ snd (run_ticks n (fst (update_output s))) = []
  /\ (sends s <-> ros_node s = true /\ exceeds s)
  /\ (forall c, snd (update_output s) = Some c ->
      (wd_x c, wd_z c) = manual_direction (button_states s)
      /\ wd_speed c = speed s
      /\ override_safe_mode c = safe_mode_override s).
Proof.
  intro Hd.
  pose proof (run_ticks_settled n _ (update_output_settled s Hd)) as Hr.
  split; [| split; [| split]].
  - simpl. destruct (update_output s) as [s1 out]. simpl in Hr.
    rewrite Hr. reflexivity.
  - rewrite Hr. reflexivity.
  - unfold sends, exceeds.
    pose proof (update_output_cases s) as Hc.
    destruct (manual_direction (button_states s)) as [x z].
    rewrite <- changed_true.
    destruct Hc as [[Hn E] | [(Hn & Hf & E) | (Hn & Ht & E)]]; rewrite E; simpl.
    + split; [intro G; now elim G | intros [G _]; congruence].
    + split; [intro G; now elim G | intros [_ G]; congruence].
    + split; [auto | discriminate].
  - intros c Hc. split; [apply update_output_call, Hc |].
    split; [| apply update_output_override, Hc].
    pose proof (update_output_cases s) as Ho.
    destruct (manual_direction (button_states s)) as [x z].
    destruct Ho as [[_ E] | [(_ & _ & E) | (_ & _ & E)]];
      rewrite E in Hc; simpl in Hc; try discriminate.
    injection Hc as <-. reflexivity.
Qed.

Lemma emergency_dispatch_witness :
  0 <= deadzone forward_in_emergency
  /\ snd (run_ticks 101 forward_in_emergency)
     = match snd (update_output forward_in_emergency) with
       | Some c => [c]
       | None => []
       end
  /\ snd (run_ticks 100 (fst (update_output forward_in_emergency))) = [].
Proof.
  assert (Hd : 0 <= deadzone forward_in_emergency) by (simpl; lra).
  split; [exact Hd |].
  split.
  - exact (proj1 (emergency_dispatch forward_in_emergency 100 Hd)).
  - exact (proj1 (proj2 (emergency_dispatch forward_in_emergency 100 Hd))).
Defined.

(** In that state the one call is the forward command, published as zero. *)
Example forward_in_emergency_run :
  snd (run_ticks 101 forward_in_emergency) = [mkWheelDrive (0 + 1) 0 0.5 false]
  /\ published forward_in_emergency (mkWheelDrive (0 + 1) 0 0.5 false)
     = Intent.zero.
Proof.
  split.
  - rewrite (run_ticks_S 100), forward_in_emergency_tick.
    rewrite (run_ticks_settled 100); [reflexivity |].
    pose proof (update_output_settled forward_in_emergency) as H.
    rewrite forward_in_emergency_tick in H. apply H. simpl. lra.
  - rewrite published_emergency by (simpl; lra). reflexivity.
Qed.

(** ** The manual buttons *)

(** Each component of the button direction is -1, 0 or 1. *)
Lemma manual_direction_range (b : ButtonStates) :
  (fst (manual_direction b) = -1 \/ fst (manual_direction b) = 0
   \/ fst (manual_direction b) = 1)
  /\ (snd (manual_direction b) = -1 \/ snd (manual_direction b) = 0
      \/ snd (manual_direction b) = 1).
Proof.
  destruct b as [[] [] [] []]; simpl; split;
    first [ left; lra | right; left; lra | right; right; lra ].
Qed.

(** C8: with forward and backward both held the manual forward component is
    exactly 0, and with left and right both held the manual turn component is
    exactly 0; a call made on such a tick carries that 0. *)
Theorem opposing_buttons_cancel (s : GUI) :
  (forward (button_states s) = true -> backward (button_states s) = true ->
   fst (manual_direction (button_states s)) = 0
   /\ forall c, snd (update_output s) = Some c -> wd_x c = 0)
  /\ (left (button_states s) = true -> right (button_states s) = true ->
      snd (manual_direction (button_states s)) = 0
      /\ forall c, snd (update_output s) = Some c -> wd_z c = 0).
Proof.
  split.
  - intros Hf Hb.
    assert (E : fst (manual_direction (button_states s)) = 0).
    { unfold manual_direction. rewrite Hf, Hb. simpl. lra. }
    split; [exact E |].
    intros c Hc. apply update_output_call in Hc.
    rewrite <- Hc in E. exact E.
  - intros Hl Hr.
    assert (E : snd (manual_direction (button_states s)) = 0).
    { unfold manual_direction. rewrite Hl, Hr. simpl. lra. }
    split; [exact E |].
    intros c Hc. apply update_output_call in Hc.
    rewrite <- Hc in E. exact E.
Qed.

Lemma opposing_buttons_cancel_witness :
  manual_direction (button_states all_buttons_held)
  = (fst (manual_direction (button_states all_buttons_held)),
     snd (manual_direction (button_states all_buttons_held)))
  /\ fst (manual_direction (button_states all_buttons_held)) = 0
  /\ snd (manual_direction (button_states all_buttons_held)) = 0.
Proof.
  split; [reflexivity |]. split.
  - exact (proj1 (proj1 (opposing_buttons_cancel all_buttons_held)
                    eq_refl eq_refl)).
  - exact (proj1 (proj2 (opposing_buttons_cancel all_buttons_held)
                    eq_refl eq_refl)).
Defined.

(** ** The controller stick *)

Lemma py_int_IZR (z : Z) : py_int (IZR z) = z.
Proof.
  unfold py_int. destruct (Rle_dec 0 (IZR z)) as [H | H].
  - symmetry. apply Int_part_spec. lra.
  - rewrite <- opp_IZR.
    rewrite <- (Int_part_spec (IZR (- z)) (- z)%Z) by lra. lia.
Qed.




Lemma sqrt_le_one (x : R) : x <= 1 -> sqrt x <= 1.
Proof.
  intro H. rewrite <- sqrt_1.
  destruct (Rle_dec 0 x) as [Hx | Hx].
  - apply sqrt_le_1_alt. exact H.
  - rewrite (sqrt_neg_0 x) by lra. apply sqrt_pos.
Qed.

Lemma sqrt_gt_one (x : R) : 1 < x -> 1 < sqrt x.
Proof.
  intro H. rewrite <- sqrt_1 at 1. apply sqrt_lt_1_alt. lra.
Qed.

Lemma sum_squares_nonneg (x z : R) : 0 <= x ^ 2 + z ^ 2.
Proof. nra. Qed.

(** A reading inside the deadzone gives 0 on either axis. *)
Lemma axis_inside_deadzone (v : R) :
  Rabs v <= stick_deadzone -> axis_z_dir v = 0 /\ axis_x_dir v = 0.
Proof.
  intro H. apply Rgtb_false in H.
  unfold axis_z_dir, axis_x_dir. rewrite H. split; reflexivity.
Qed.

(** A reading beyond the deadzone passes: as it is on axis 0, negated on
    axis 1. *)
Lemma axis_beyond_deadzone (v : R) :
  Rabs v > stick_deadzone -> axis_z_dir v = v /\ axis_x_dir v = - v.
Proof.
  intro H. apply Rgtb_true in H.
  unfold axis_z_dir, axis_x_dir. rewrite H. split; reflexivity.
Qed.

Lemma axis_x_dir_square (v : R) : axis_x_dir v ^ 2 <= v ^ 2.
Proof. unfold axis_x_dir. destruct (Rgtb _ _); nra. Qed.

Lemma axis_z_dir_square (v : R) : axis_z_dir v ^ 2 <= v ^ 2.
Proof. unfold axis_z_dir. destruct (Rgtb _ _); nra. Qed.

(** Scaling keeps a zero component zero. *)
Lemma normalize_zero_fst (z : R) : fst (normalize 0 z) = 0.
Proof.
  unfold normalize. destruct (Rgtb _ 1); simpl; [| reflexivity].
  unfold Rdiv. apply Rmult_0_l.
Qed.

Lemma normalize_zero_snd (x : R) : snd (normalize x 0) = 0.
Proof.
  unfold normalize. destruct (Rgtb _ 1); simpl; [| reflexivity].
  unfold Rdiv. apply Rmult_0_l.
Qed.

(** C7, as stated, fails on axis 1: the reading 0.5 is beyond the deadzone
    and contributes -0.5 to the forward component, not its raw value. *)
Lemma axis1_is_negated :
  Rabs 0.5 > stick_deadzone
  /\ axis_x_dir 0.5 = - (0.5)
  /\ axis_x_dir 0.5 <> 0.5
  /\ fst (gamepad_direction 0 0.5) <> 0.5.
Proof.
  assert (Hb : Rabs 0.5 > stick_deadzone) by (unfold stick_deadzone; rcompute).
  destruct (axis_beyond_deadzone 0.5 Hb) as [_ Hx].
  assert (Hz : axis_z_dir 0 = 0).
  { apply axis_inside_deadzone. unfold stick_deadzone. rcompute. }
  repeat split.
  - exact Hb.
  - exact Hx.
  - rewrite Hx. lra.
  - unfold gamepad_direction. rewrite Hx, Hz. unfold normalize.
    replace (Rgtb (sqrt ((- (0.5)) ^ 2 + 0 ^ 2)) 1) with false.
    + simpl. lra.
    + symmetry. apply Rgtb_false. apply sqrt_le_one. lra.
Qed.

(** C7, amended: a stick reading [v] with [|v| <= 0.2] contributes exactly 0
    on its axis, also after scaling; a reading beyond the deadzone
    contributes [v] on axis 0 (turn) and [-v] on axis 1 (forward) before
    scaling; axis 0 at 0.05 gives 0 and at 0.5 gives 0.5. *)
Theorem stick_deadzone_filter (v w : R) :
  (Rabs v <= stick_deadzone ->
   axis_z_dir v = 0 /\ axis_x_dir v = 0
   /\ snd (gamepad_direction v w) = 0 /\ fst (gamepad_direction w v) = 0)
  /\ (Rabs v > stick_deadzone -> axis_z_dir v = v /\ axis_x_dir v = - v)
  /\ axis_z_dir 0.05 = 0
  /\ axis_z_dir 0.5 = 0.5.
Proof.
  split; [| split; [| split]].
  - intro H. destruct (axis_inside_deadzone v H) as [Hz Hx].
    repeat split; try assumption.
    + unfold gamepad_direction. rewrite Hz. apply normalize_zero_snd.
    + unfold gamepad_direction. rewrite Hx. apply normalize_zero_fst.
  - apply axis_beyond_deadzone.
  - apply axis_inside_deadzone. unfold stick_deadzone. rcompute.
  - apply axis_beyond_deadzone. unfold stick_deadzone. rcompute.
Qed.

Lemma stick_deadzone_filter_witness :
  (axis_z_dir 0.05 = 0 /\ axis_x_dir 0.05 = 0)
  /\ (axis_z_dir 0.5 = 0.5 /\ axis_x_dir 0.5 = - (0.5)).
Proof.
  split.
  - assert (H : Rabs 0.05 <= stick_deadzone)
      by (unfold stick_deadzone; rcompute).
    destruct (proj1 (stick_deadzone_filter 0.05 0) H) as (Hz & Hx & _).
    split; assumption.
  - assert (H : Rabs 0.5 > stick_deadzone)
      by (unfold stick_deadzone; rcompute).
    exact (proj1 (proj2 (stick_deadzone_filter 0.5 0)) H).
Defined.

(** ** Scaling to the unit circle *)


Lemma normalize_magnitude (x z : R) : magnitude (normalize x z) <= 1.
Proof.
  unfold normalize, magnitude.
  remember (sqrt (x ^ 2 + z ^ 2)) as m eqn:Em.
  destruct (Rgtb m 1) eqn:E; cbn [fst snd].
  - apply Rgtb_true in E.
    assert (Hm : m ^ 2 = x ^ 2 + z ^ 2).
    { rewrite Em. apply pow2_sqrt. apply sum_squares_nonneg. }
    assert (H1 : (x / m) ^ 2 + (z / m) ^ 2 = 1).
    { replace ((x / m) ^ 2 + (z / m) ^ 2) with ((x ^ 2 + z ^ 2) / m ^ 2)
        by (field; lra).
      rewrite <- Hm. field. lra. }
    rewrite H1, sqrt_1. lra.
  - apply Rgtb_false in E. rewrite <- Em. exact E.
Qed.

(** The button direction is within the square of side 2. *)
Lemma manual_direction_magnitude (b : ButtonStates) :
  magnitude (manual_direction b) <= sqrt 2.
Proof.
  unfold magnitude.
  destruct b as [[] [] [] []]; cbn [manual_direction forward backward left right fst snd];
    apply sqrt_le_1_alt; lra.
Qed.

(** The outcomes of a poll: after the optional re-initialisation the state
    is returned as it is, marked disconnected, or with the stick written. *)
Lemma update_gamepad_cases (p : Poll) (s : GUI) :
  exists s0 : GUI,
    (s0 = s \/ s0 = init_gamepad p (set_last_gamepad_check (get_ticks p) s))
    /\ (update_gamepad p s = (s0, false)
        \/ update_gamepad p s = (gamepad_error s0, false)
        \/ exists (slider : Z) (left_x left_y : R) (b : bool),
             update_gamepad p s =
               (set_stick slider (gamepad_direction left_x left_y) s0, b)).
Proof.
  unfold update_gamepad.
  set (s0 := if (get_ticks p - last_gamepad_check s >? 5000)%Z
             then init_gamepad p (set_last_gamepad_check (get_ticks p) s)
             else s).
  exists s0. split.
  - subst s0. destruct (get_ticks p - last_gamepad_check s >? 5000)%Z; auto.
  - clearbody s0.
    destruct (gamepad_connected s0); cbn [negb]; [| auto].
    destruct (attached p) as [j |]; [| auto].
    destruct (0 <? get_numaxes j)%nat; [| auto].
    right; right. eauto.
Qed.

(** What a poll leaves untouched: the buttons and everything the dispatch
    tick compares against. *)
Lemma update_gamepad_frame (p : Poll) (s : GUI) :
  let s1 := fst (update_gamepad p s) in
  button_states s1 = button_states s
  /\ ros_node s1 = ros_node s
  /\ last_sent s1 = last_sent s
  /\ deadzone s1 = deadzone s
  /\ safe_mode_override s1 = safe_mode_override s.
Proof.
  destruct (update_gamepad_cases p s)
    as (s0 & [-> | ->] & [E | [E | (sl & lx & ly & b & E)]]);
    cbv zeta; rewrite E; repeat split; reflexivity.
Qed.

(** The stored stick direction after a poll is the old one or a freshly
    scaled one. *)
Lemma update_gamepad_direction (p : Poll) (s : GUI) :
  let s1 := fst (update_gamepad p s) in
  (x_dir s1, z_dir s1) = (x_dir s, z_dir s)
  \/ exists left_x left_y : R,
       (x_dir s1, z_dir s1) = gamepad_direction left_x left_y.
Proof.
  destruct (update_gamepad_cases p s)
    as (s0 & [-> | ->] & [E | [E | (sl & lx & ly & b & E)]]);
    cbv zeta; rewrite E;
    try (left; reflexivity);
    right; exists lx, ly; symmetry; apply surjective_pairing.
Qed.

(** A poll that finds the pad connected and answering reads the stick. *)
Lemma update_gamepad_read (p : Poll) (s : GUI) (j : Joystick) :
  (get_ticks p - last_gamepad_check s <= 5000)%Z ->
  gamepad_connected s = true ->
  attached p = Some j ->
  (0 < get_numaxes j)%nat ->
  update_gamepad p s =
    (set_stick
       (nudge_slider (speed_slider s)
          (if (3 <? get_numaxes j)%nat then get_axis j 3 else 0))
       (gamepad_direction
          (get_axis j 0)
          (if (1 <? get_numaxes j)%nat then get_axis j 1 else 0))
       s,
     get_button j 9).
Proof.
  intros Ht Hc Ha Hn. unfold update_gamepad.
  replace (get_ticks p - last_gamepad_check s >? 5000)%Z with false
    by (symmetry; rewrite Z.gtb_ltb; apply Z.ltb_ge; exact Ht).
  rewrite Hc, Ha. cbn [negb].
  apply Nat.ltb_lt in Hn. rewrite Hn. reflexivity.
Qed.

Lemma normalize_inside (x z : R) : x ^ 2 + z ^ 2 <= 1 -> normalize x z = (x, z).
Proof.
  intro H. unfold normalize.
  replace (Rgtb (sqrt (x ^ 2 + z ^ 2)) 1) with false; [reflexivity |].
  symmetry. apply Rgtb_false, sqrt_le_one, H.
Qed.

(** C6, as stated, fails: with forward and left held the tick sends the
    direction (1, 1) unscaled, of magnitude sqrt 2 > 1. *)
Lemma diagonal_buttons_exceed_unit :
  exists s' c,
    update_output diagonal_buttons = (s', Some c)
    /\ (wd_x c, wd_z c) = (0 + 1, 0 + 1)
    /\ magnitude (wd_x c, wd_z c) > 1.
Proof.
  pose proof (update_output_cases diagonal_buttons) as Hc.
  simpl in Hc.
  destruct Hc as [[H _] | [(_ & Hf & _) | (_ & _ & E)]].
  - discriminate.
  - exfalso. apply changed_false in Hf. simpl in Hf.
    destruct Hf as [Hf _]. revert Hf. rcompute.
  - eexists; eexists. split; [exact E |]. split; [reflexivity |].
    unfold magnitude. cbn [wd_x wd_z fst snd].
    apply sqrt_gt_one. lra.
Qed.

Lemma normalize_outside (x z : R) :
  sqrt (x ^ 2 + z ^ 2) > 1 ->
  normalize x z = (x / sqrt (x ^ 2 + z ^ 2), z / sqrt (x ^ 2 + z ^ 2))
  /\ magnitude (normalize x z) = 1.
Proof.
  intro Hm. unfold normalize, magnitude.
  remember (sqrt (x ^ 2 + z ^ 2)) as m eqn:Em.
  replace (Rgtb m 1) with true by (symmetry; apply Rgtb_true; exact Hm).
  split; [reflexivity |]. cbn [fst snd].
  assert (Hm2 : m ^ 2 = x ^ 2 + z ^ 2).
  { rewrite Em. apply pow2_sqrt, sum_squares_nonneg. }
  replace ((x / m) ^ 2 + (z / m) ^ 2) with ((x ^ 2 + z ^ 2) / m ^ 2)
    by (field; lra).
  rewrite <- Hm2.
  replace (m ^ 2 / m ^ 2) with 1 by (field; lra).
  apply sqrt_1.
Qed.

(** C6, amended: the direction the controller poll stores has Euclidean
    magnitude at most 1 (up to floating-point epsilon; floats are read as
    reals here): when the norm of the stick vector after the deadzone exceeds
    1, both components are divided by that norm and the result has magnitude
    1, otherwise the vector is stored as it is; a poll that does not call
    [emergency_stop()] keeps the stored direction within the unit circle.
    The button direction that the dispatch tick sends is not scaled and has
    magnitude at most sqrt 2. *)
Theorem stick_direction_unit (p : Poll) (s : GUI) (left_x left_y : R) :
  magnitude (gamepad_direction left_x left_y) <= 1
  /\ (magnitude (axis_x_dir left_y, axis_z_dir left_x) > 1 ->
      gamepad_direction left_x left_y
      = (axis_x_dir left_y / magnitude (axis_x_dir left_y, axis_z_dir left_x),
         axis_z_dir left_x / magnitude (axis_x_dir left_y, axis_z_dir left_x))
      /\ magnitude (gamepad_direction left_x left_y) = 1)
  /\ (magnitude (axis_x_dir left_y, axis_z_dir left_x) <= 1 ->
      gamepad_direction left_x left_y = (axis_x_dir left_y, axis_z_dir left_x))
  /\ (snd (update_gamepad p s) = false ->
      magnitude (x_dir s, z_dir s) <= 1 ->
      magnitude (x_dir (fst (update_gamepad p s)),
                 z_dir (fst (update_gamepad p s))) <= 1)
  /\ magnitude (manual_direction (button_states s)) <= sqrt 2.
Proof.
  split; [| split; [| split; [| split]]].
  - apply normalize_magnitude.
  - intro H. apply normalize_outside. exact H.
  - intro H. unfold gamepad_direction, normalize.
    replace (Rgtb (sqrt (axis_x_dir left_y ^ 2 + axis_z_dir left_x ^ 2)) 1)
      with false; [reflexivity |].
    symmetry. apply Rgtb_false. exact H.
  - intros _ H.
    destruct (update_gamepad_direction p s) as [E | (lx & ly & E)];
      rewrite E.
    + exact H.
    + apply normalize_magnitude.
  - apply manual_direction_magnitude.
Qed.

Lemma stick_direction_unit_witness :
  magnitude (x_dir (init true 0), z_dir (init true 0)) <= 1
  /\ magnitude
       (x_dir (fst (update_gamepad (mkPoll 1000 (Some stick_corner))
                                   (init true 0))),
        z_dir (fst (update_gamepad (mkPoll 1000 (Some stick_corner))
                                   (init true 0)))) <= 1
  /\ magnitude (gamepad_direction 1 (-1)) = 1
  /\ gamepad_direction 0.5 0 = (axis_x_dir 0, axis_z_dir 0.5).
Proof.
  assert (H : magnitude (x_dir (init true 0), z_dir (init true 0)) <= 1).
  { unfold magnitude. simpl. apply sqrt_le_one. lra. }
  assert (Hx : axis_x_dir (-1) = 1).
  { destruct (axis_beyond_deadzone (-1)) as [_ Hx].
    - unfold stick_deadzone. rcompute.
    - rewrite Hx. lra. }
  assert (Hz : axis_z_dir 1 = 1).
  { apply (axis_beyond_deadzone 1). unfold stick_deadzone. rcompute. }
  split; [exact H |]. split; [| split].
  - exact (proj1 (proj2 (proj2 (proj2
      (stick_direction_unit (mkPoll 1000 (Some stick_corner)) (init true 0)
                            0 0)))) eq_refl H).
  - apply (proj1 (proj2
      (stick_direction_unit poll_no_device (init true 0) 1 (-1)))).
    rewrite Hx, Hz. unfold magnitude. cbn [fst snd].
    apply sqrt_gt_one. lra.
  - apply (proj1 (proj2 (proj2
      (stick_direction_unit poll_no_device (init true 0) 0.5 0)))).
    pose proof (axis_x_dir_square 0). pose proof (axis_z_dir_square 0.5).
    unfold magnitude. cbn [fst snd]. apply sqrt_le_one. lra.
Defined.

(** In the corner the stored direction is the scaled diagonal. *)
Example stick_corner_poll :
  let s1 := fst (update_gamepad (mkPoll 1000 (Some stick_corner))
                                (init true 0)) in
  (x_dir s1, z_dir s1) = (1 / sqrt 2, 1 / sqrt 2).
Proof.
  cbv zeta.
  rewrite (update_gamepad_read _ _ stick_corner);
    [| simpl; lia | reflexivity | reflexivity | simpl; lia ].
  cbn [fst set_stick x_dir z_dir stick_corner get_numaxes get_axis Nat.ltb Nat.leb].
  assert (Hx : axis_x_dir (-1) = 1).
  { destruct (axis_beyond_deadzone (-1)) as [_ H].
    - unfold stick_deadzone. rcompute.
    - rewrite H. lra. }
  assert (Hz : axis_z_dir 1 = 1).
  { apply (axis_beyond_deadzone 1). unfold stick_deadzone. rcompute. }
  unfold gamepad_direction. rewrite Hx, Hz. unfold normalize.
  replace (1 ^ 2 + 1 ^ 2) with 2 by lra.
  replace (Rgtb (sqrt 2) 1) with true; [reflexivity |].
  symmetry. apply Rgtb_true. apply sqrt_gt_one. lra.
Qed.

(** ** Buttons and stick at the dispatch tick *)








(** ** Start-up *)

(** The threshold slider starts at 50, that is 5.0 m. *)
Example threshold_slider_start (gamepad : bool) (slider : Z) :
  threshold_slider_init (init gamepad slider) = 50%Z
  /\ slider_threshold 50 = hazard_threshold (init gamepad slider).
Proof.
  split.
  - unfold threshold_slider_init. simpl.
    replace (5 * 10) with (IZR 50) by lra. apply py_int_IZR.
  - unfold slider_threshold. simpl. lra.
Qed.

(** ** Before the first sample *)


Lemma update_gamepad_hazard (p : Poll) (s : GUI) :
  hazard_distance (fst (update_gamepad p s)) = hazard_distance s
  /\ emergency_active (fst (update_gamepad p s)) = emergency_active s
  /\ hazard_threshold (fst (update_gamepad p s)) = hazard_threshold s.
Proof.
  destruct (update_gamepad_cases p s)
    as (s0 & [-> | ->] & [E | [E | (sl & lx & ly & b & E)]]);
    rewrite E; repeat split; reflexivity.
Qed.








(** A run from start-up: the node comes up, a poll reads a pad at rest, a
    tick follows; a poll with START pressed is where the run leaves the
    source. *)
Example startup_runs :
  (exists s, run [NodeUp; PollPad poll_stick_right; Tick] (init true 0)
             = Some s)
  /\ run [PollPad (mkPoll 1000 (Some stick_start))] (init true 0) = None.
Proof.
  split.
  - cbn [run step]. destruct (update_gamepad poll_stick_right _) as [s1 b] eqn:E.
    assert (Hb : b = false).
    { change b with (snd (s1, b)). rewrite <- E. reflexivity. }
    subst b. eexists. reflexivity.
  - reflexivity.
Qed.

(** * Further properties of the source *)

(** ** Truncation *)

Lemma py_int_small (r : R) : Rabs r < 1 -> py_int r = 0%Z.
Proof.
  intro H. apply Rabs_def2 in H. destruct H as [Hhi Hlo].
  unfold py_int. destruct (Rle_dec 0 r) as [Hr | Hr].
  - symmetry. apply Int_part_spec. simpl. lra.
  - rewrite <- (Int_part_spec (- r) 0); [reflexivity | simpl; lra].
Qed.

Lemma Int_part_bound (r : R) (k : Z) :
  0 <= r -> r <= IZR k -> (0 <= Int_part r <= k)%Z.
Proof.
  intros H0 Hk. destruct (base_Int_part r) as [Hle Hgt]. split.
  - apply Z.lt_succ_r. apply lt_IZR. rewrite succ_IZR. simpl. lra.
  - apply le_IZR. lra.
Qed.

Lemma py_int_bound (r : R) (k : Z) :
  Rabs r <= IZR k -> (- k <= py_int r <= k)%Z.
Proof.
  intro H. unfold py_int. destruct (Rle_dec 0 r) as [Hr | Hr].
  - rewrite Rabs_right in H by lra.
    pose proof (Int_part_bound r k Hr H). lia.
  - rewrite Rabs_left in H by lra.
    assert (H0 : 0 <= - r) by lra.
    pose proof (Int_part_bound (- r) k H0 H). lia.
Qed.

(** ** The speed nudge of the right stick *)





(** X2: a right stick within 0.2 of rest leaves a slider value of 0..100 as
    it is, and a reading within -1..1 moves it by at most 5 steps. *)
Theorem right_stick_step (cur : Z) (right_x : R) :
  (0 <= cur <= 100)%Z ->
  (Rabs right_x < 0.2 -> nudge_slider cur right_x = cur)
  /\ (Rabs right_x <= 1 ->
      (cur - 5 <= nudge_slider cur right_x <= cur + 5)%Z).
Proof.
  intro Hc. split.
  - intro H. unfold nudge_slider.
    rewrite py_int_small.
    + lia.
    + apply Rabs_def2 in H. apply Rabs_def1; lra.
  - intro H. unfold nudge_slider.
    assert (Hb : Rabs (right_x * 5) <= IZR 5).
    { rewrite Rabs_mult, (Rabs_right 5) by lra. simpl. lra. }
    pose proof (py_int_bound (right_x * 5) 5 Hb). lia.
Qed.

Lemma right_stick_step_witness :
  nudge_slider 50 0.1 = 50%Z
  /\ (50 - 5 <= nudge_slider 50 (-1) <= 50 + 5)%Z.
Proof.
  assert (Hc : (0 <= 50 <= 100)%Z) by lia.
  split.
  - apply (proj1 (right_stick_step 50 0.1 Hc)). rcompute.
  - apply (proj2 (right_stick_step 50 (-1) Hc)). rcompute.
Defined.

(** ** Connection handling of the poll *)



(** X3: a poll that finds no device leaves the pad marked disconnected, does
    not ask for an emergency stop, and leaves speed, slider and stick
    direction as they were, whether the flag was set or the connection was
    due for a new look. *)
Theorem poll_without_device (p : Poll) (s : GUI) :
  attached p = None ->
  gamepad_connected (fst (update_gamepad p s)) = false
  /\ snd (update_gamepad p s) = false
  /\ speed (fst (update_gamepad p s)) = speed s
  /\ speed_slider (fst (update_gamepad p s)) = speed_slider s
  /\ x_dir (fst (update_gamepad p s)) = x_dir s
  /\ z_dir (fst (update_gamepad p s)) = z_dir s.
Proof.
  intro Ha. unfold update_gamepad. rewrite Ha.
  destruct (get_ticks p - last_gamepad_check s >? 5000)%Z.
  - cbn [init_gamepad gamepad_connected]. rewrite Ha. cbn [negb fst snd].
    cbn [init_gamepad set_last_gamepad_check gamepad_connected speed
         speed_slider x_dir z_dir].
    rewrite Ha. repeat split; reflexivity.
  - destruct (gamepad_connected s) eqn:Hc; cbn [negb fst snd].
    + cbn. repeat split; reflexivity.
    + repeat split; try reflexivity. exact Hc.
Qed.

Lemma poll_without_device_witness :
  gamepad_connected forward_held_with_pad = true
  /\ gamepad_connected
       (fst (update_gamepad poll_no_device forward_held_with_pad)) = false.
Proof.
  split; [reflexivity |].
  exact (proj1 (poll_without_device poll_no_device forward_held_with_pad
                  eq_refl)).
Defined.



(** X5: a poll asks for the emergency stop exactly when a device answers,
    the pad counts as connected (by the flag, or by a look that was due),
    the device has at least one axis, and its button 9 is down; a device
    without axes never triggers the stop. *)
Theorem start_button_request (p : Poll) (s : GUI) :
  snd (update_gamepad p s) = true
  <-> exists j : Joystick,
        attached p = Some j
        /\ (recheck_due p s = true \/ gamepad_connected s = true)
        /\ (0 < get_numaxes j)%nat
        /\ get_button j 9 = true.
Proof.
  unfold update_gamepad, recheck_due.
  destruct (get_ticks p - last_gamepad_check s >? 5000)%Z.
  - cbn [init_gamepad gamepad_connected].
    destruct (attached p) as [j |]; cbn [negb snd].
    + destruct (0 <? get_numaxes j)%nat eqn:Hn; cbn [snd].
      * apply Nat.ltb_lt in Hn. split.
        -- intro Hb. exists j. auto.
        -- intros (j' & Hj & _ & _ & Hb). injection Hj as <-. exact Hb.
      * apply Nat.ltb_ge in Hn. split; [discriminate |].
        intros (j' & Hj & _ & Hn' & _). injection Hj as <-. lia.
    + split; [discriminate | intros (j' & Hj & _)]; discriminate.
  - destruct (gamepad_connected s); cbn [negb snd].
    + destruct (attached p) as [j |]; cbn [snd].
      * destruct (0 <? get_numaxes j)%nat eqn:Hn; cbn [snd].
        -- apply Nat.ltb_lt in Hn. split.
           ++ intro Hb. exists j. auto.
           ++ intros (j' & Hj & _ & _ & Hb). injection Hj as <-. exact Hb.
        -- apply Nat.ltb_ge in Hn. split; [discriminate |].
           intros (j' & Hj & _ & Hn' & _). injection Hj as <-. lia.
      * split; [discriminate | intros (j' & Hj & _)]; discriminate.
    + split; [discriminate |].
      intros (j' & _ & [H | H] & _); discriminate.
Qed.

(** START on a pad at rest asks for the stop; the same button on a device
    without axes does not. *)
Example start_button_scenarios :
  snd (update_gamepad (mkPoll 1000 (Some stick_start)) forward_held_with_pad)
  = true
  /\ snd (update_gamepad (mkPoll 1000 (Some pad_without_axes))
                         forward_held_with_pad) = false.
Proof. split; reflexivity. Qed.

(** X6: a poll that does not call [emergency_stop()] never touches the
    buttons, the hazard fields, the override flag, the ROS node, the change
    threshold or the values last sent. *)
Theorem poll_frame (p : Poll) (s : GUI) :
  snd (update_gamepad p s) = false ->
  button_states (fst (update_gamepad p s)) = button_states s
  /\ hazard_distance (fst (update_gamepad p s)) = hazard_distance s
  /\ hazard_threshold (fst (update_gamepad p s)) = hazard_threshold s
  /\ emergency_active (fst (update_gamepad p s)) = emergency_active s
  /\ safe_mode_override (fst (update_gamepad p s)) = safe_mode_override s
  /\ ros_node (fst (update_gamepad p s)) = ros_node s
  /\ deadzone (fst (update_gamepad p s)) = deadzone s
  /\ last_sent (fst (update_gamepad p s)) = last_sent s.
Proof.
  intros _.
  destruct (update_gamepad_frame p s) as (Hb & Hn & Hl & Hd & Ho).
  destruct (update_gamepad_hazard p s) as (Hh & He & Ht).
  repeat split; assumption.
Qed.

Lemma poll_frame_witness :
  snd (update_gamepad poll_stick_right forward_held_with_pad) = false
  /\ button_states (fst (update_gamepad poll_stick_right
                                        forward_held_with_pad))
     = button_states forward_held_with_pad.
Proof.
  assert (H : snd (update_gamepad poll_stick_right forward_held_with_pad)
              = false) by reflexivity.
  split; [exact H |].
  exact (proj1 (poll_frame poll_stick_right forward_held_with_pad H)).
Defined.

(** ** What the dispatch tick reads and leaves behind *)

(** X7: the dispatch tick decides and builds its call from the ROS node, the
    buttons, the speed, the override flag, the values last sent and the
    change threshold alone: two states that agree on these make the same
    call, whatever the hazard distance, the threshold, the emergency flag,
    the stick direction and the pad connection are. *)
Theorem dispatch_ignores_hazard_and_stick (s s' : GUI) :
  same_dispatch_inputs s s' ->
  snd (update_output s) = snd (update_output s')
  /\ last_sent (fst (update_output s)) = last_sent (fst (update_output s')).
Proof.
  intros (Hn & Hb & Hsp & Ho & Hx & Hz & Hl & Hd).
  unfold update_output, changed. rewrite Hn, Hb, Hsp, Ho, Hx, Hz, Hl, Hd.
  destruct (ros_node s'); cbn [negb].
  - destruct (manual_direction (button_states s')) as [x z].
    destruct (Rgtb (Rabs (x - last_x s')) (deadzone s')
              || Rgtb (Rabs (z - last_z s')) (deadzone s')
              || Rgtb (Rabs (speed s' - last_speed s')) (deadzone s')).
    + split; reflexivity.
    + cbn [fst snd]. split; [reflexivity |].
      unfold last_sent. rewrite Hx, Hz, Hl. reflexivity.
  - cbn [fst snd]. split; [reflexivity |].
    unfold last_sent. rewrite Hx, Hz, Hl. reflexivity.
Qed.

Lemma dispatch_ignores_hazard_and_stick_witness :
  same_dispatch_inputs cruise_start cruise_start_disturbed
  /\ snd (update_output cruise_start)
     = snd (update_output cruise_start_disturbed).
Proof.
  assert (H : same_dispatch_inputs cruise_start cruise_start_disturbed).
  { unfold same_dispatch_inputs. simpl. repeat split; reflexivity. }
  split; [exact H |].
  exact (proj1 (dispatch_ignores_hazard_and_stick cruise_start
                  cruise_start_disturbed H)).
Defined.

Lemma button_valued_close (a b d : R) :
  button_valued a -> button_valued b -> d < 1 -> Rabs (a - b) <= d -> a = b.
Proof.
  unfold button_valued. intros Ha Hb Hd H.
  assert (H1 : Rabs (a - b) < 1) by lra.
  apply Rabs_def2 in H1.
  destruct Ha as [-> | [-> | ->]], Hb as [-> | [-> | ->]]; lra.
Qed.

Lemma manual_direction_valued (b : ButtonStates) :
  button_valued (fst (manual_direction b))
  /\ button_valued (snd (manual_direction b)).
Proof. apply manual_direction_range. Qed.

(** After a tick with the node present no field is further than the change
    threshold from the value last sent. *)
Lemma update_output_within (s : GUI) :
  ros_node s = true -> 0 <= deadzone s ->
  within_deadzone (fst (update_output s)).
Proof.
  intros Hn Hd. unfold within_deadzone.
  pose proof (update_output_cases s) as Hc.
  destruct (manual_direction (button_states s)) as [x z] eqn:Em.
  destruct Hc as [[Hf _] | [(_ & Hf & E) | (_ & _ & E)]].
  - congruence.
  - rewrite E. cbn [fst]. rewrite Em. apply changed_false, Hf.
  - rewrite E. cbn [fst set_last button_states last_x last_z last_speed
                    speed deadzone].
    rewrite Em. unfold Rminus. rewrite !Rplus_opp_r, Rabs_R0. auto.
Qed.

(** X8: after a tick that found the ROS node, with a change threshold in
    [0, 1) and stored direction values that are button values, the stored
    direction is exactly the direction now held on the buttons, the stored
    speed is within the threshold of the current speed, and the stored
    direction values are button values again. *)
Theorem tick_tracks_buttons (s : GUI) :
  ros_node s = true ->
  0 <= deadzone s < 1 ->
  button_valued (last_x s) ->
  button_valued (last_z s) ->
  (last_x (fst (update_output s)), last_z (fst (update_output s)))
  = manual_direction (button_states s)
  /\ Rabs (speed s - last_speed (fst (update_output s))) <= deadzone s
  /\ button_valued (last_x (fst (update_output s)))
  /\ button_valued (last_z (fst (update_output s))).
Proof.
  intros Hn [Hd0 Hd1] Hx Hz.
  pose proof (update_output_within s Hn Hd0) as Hw.
  pose proof (manual_direction_valued (button_states s)) as [Vx Vz].
  unfold within_deadzone in Hw.
  pose proof (update_output_cases s) as Hc.
  destruct (manual_direction (button_states s)) as [x z] eqn:Em.
  cbn [fst snd] in Vx, Vz.
  destruct Hc as [[Hf _] | [(_ & _ & E) | (_ & _ & E)]].
  - congruence.
  - rewrite E in *. cbn [fst] in *. rewrite Em in Hw.
    destruct Hw as (Wx & Wz & Ws).
    assert (Ex : x = last_x s) by (apply (button_valued_close _ _ (deadzone s)); auto).
    assert (Ez : z = last_z s) by (apply (button_valued_close _ _ (deadzone s)); auto).
    repeat split; try assumption. congruence.
  - rewrite E. cbn [fst set_last last_x last_z last_speed].
    repeat split; try assumption.
    unfold Rminus. rewrite Rplus_opp_r, Rabs_R0. exact Hd0.
Qed.

Lemma tick_tracks_buttons_witness :
  (last_x (fst (update_output cruise_start)),
   last_z (fst (update_output cruise_start)))
  = manual_direction (button_states cruise_start).
Proof.
  assert (Hd : 0 <= deadzone cruise_start < 1) by (simpl; lra).
  assert (Hv : button_valued 0) by (right; left; reflexivity).
  exact (proj1 (tick_tracks_buttons cruise_start eq_refl Hd Hv Hv)).
Defined.

(** X9: with a change threshold that is not negative, any number of ticks
    on unchanged inputs leaves the state one tick leaves: from the second
    tick on nothing is stored. *)
Theorem ticks_settle_after_one (n : nat) (s : GUI) :
  0 <= deadzone s ->
  fst (run_ticks (S n) s) = fst (update_output s).
Proof.
  intro Hd. rewrite run_ticks_S.
  pose proof (run_ticks_settled n _ (update_output_settled s Hd)) as Hr.
  destruct (update_output s) as [s1 out]. cbn [fst] in Hr.
  rewrite Hr. reflexivity.
Qed.

Lemma ticks_settle_after_one_witness :
  0 <= deadzone cruise_start
  /\ fst (run_ticks 20 cruise_start) = fst (update_output cruise_start).
Proof.
  assert (Hd : 0 <= deadzone cruise_start) by (simpl; lra).
  split; [exact Hd |].
  exact (ticks_settle_after_one 19 cruise_start Hd).
Defined.

(** X10: while every field of the candidate is within the change threshold
    of the value last sent, ticks send nothing and store nothing, however
    many there are and whether or not the ROS node exists; in particular a
    speed that drifted by no more than the threshold is never reported. *)
Theorem ticks_silent_within_deadzone (n : nat) (s : GUI) :
  within_deadzone s ->
  run_ticks n s = (s, []).
Proof.
  intro Hw. apply run_ticks_settled.
  unfold within_deadzone in Hw.
  pose proof (update_output_cases s) as Hc.
  destruct (manual_direction (button_states s)) as [x z].
  destruct Hc as [[_ E] | [(_ & _ & E) | (_ & Ht & _)]]; try exact E.
  apply changed_true in Ht. lra.
Qed.

Lemma ticks_silent_within_deadzone_witness :
  within_deadzone entering_emergency
  /\ run_ticks 20 entering_emergency = (entering_emergency, []).
Proof.
  assert (H : within_deadzone entering_emergency).
  { unfold within_deadzone. simpl. repeat split; rcompute. }
  split; [exact H |].
  exact (ticks_silent_within_deadzone 20 entering_emergency H).
Defined.

(** ** The stored stick direction *)

(** X11: a stick reading inside the unit circle is stored without scaling:
    each axis as the deadzone filter leaves it. *)
Theorem stick_inside_unit_circle (left_x left_y : R) :
  left_x ^ 2 + left_y ^ 2 <= 1 ->
  gamepad_direction left_x left_y = (axis_x_dir left_y, axis_z_dir left_x).
Proof.
  intro H. unfold gamepad_direction. apply normalize_inside.
  pose proof (axis_x_dir_square left_y).
  pose proof (axis_z_dir_square left_x). lra.
Qed.

Lemma stick_inside_unit_circle_witness :
  gamepad_direction 0.5 (-0.5) = (axis_x_dir (-0.5), axis_z_dir 0.5).
Proof.
  apply (stick_inside_unit_circle 0.5 (-0.5)). lra.
Defined.

(** X12: when the filtered stick vector is longer than 1, the stored
    direction has length exactly 1 and points the same way: each component
    keeps its sign and is no larger in absolute value than before. *)
Theorem scaled_direction_is_unit (left_x left_y : R) :
  magnitude (axis_x_dir left_y, axis_z_dir left_x) > 1 ->
  magnitude (gamepad_direction left_x left_y) = 1
  /\ 0 <= fst (gamepad_direction left_x left_y) * axis_x_dir left_y
  /\ 0 <= snd (gamepad_direction left_x left_y) * axis_z_dir left_x
  /\ Rabs (fst (gamepad_direction left_x left_y)) <= Rabs (axis_x_dir left_y)
  /\ Rabs (snd (gamepad_direction left_x left_y)) <= Rabs (axis_z_dir left_x).
Proof.
  unfold gamepad_direction, magnitude. cbn [fst snd].
  generalize (axis_x_dir left_y) (axis_z_dir left_x). intros x z Hm.
  unfold normalize.
  remember (sqrt (x ^ 2 + z ^ 2)) as m eqn:Em.
  replace (Rgtb m 1) with true by (symmetry; apply Rgtb_true; exact Hm).
  cbn [fst snd].
  assert (Hm2 : m ^ 2 = x ^ 2 + z ^ 2).
  { rewrite Em. apply pow2_sqrt, sum_squares_nonneg. }
  assert (Hi : 0 < / m <= 1).
  { split.
    - apply Rinv_0_lt_compat. lra.
    - rewrite <- Rinv_1. apply Rinv_le_contravar; lra. }
  split; [| split; [| split; [| split]]].
  - replace ((x / m) ^ 2 + (z / m) ^ 2) with ((x ^ 2 + z ^ 2) / m ^ 2)
      by (field; lra).
    rewrite <- Hm2.
    replace (m ^ 2 / m ^ 2) with 1 by (field; lra).
    apply sqrt_1.
  - unfold Rdiv. nra.
  - unfold Rdiv. nra.
  - unfold Rdiv. rewrite Rabs_mult, (Rabs_right (/ m)) by lra.
    pose proof (Rabs_pos x). nra.
  - unfold Rdiv. rewrite Rabs_mult, (Rabs_right (/ m)) by lra.
    pose proof (Rabs_pos z). nra.
Qed.

Lemma scaled_direction_is_unit_witness :
  magnitude (gamepad_direction 1 (-1)) = 1.
Proof.
  apply (scaled_direction_is_unit 1 (-1)).
  assert (Hx : axis_x_dir (-1) = 1).
  { destruct (axis_beyond_deadzone (-1)) as [_ H].
    - unfold stick_deadzone. rcompute.
    - rewrite H. lra. }
  assert (Hz : axis_z_dir 1 = 1).
  { apply (axis_beyond_deadzone 1). unfold stick_deadzone. rcompute. }
  rewrite Hx, Hz. unfold magnitude. cbn [fst snd].
  apply sqrt_gt_one. lra.
Defined.

(** ** Pads with few axes *)


